(** * Xeon-SP IIO stack domains: a shallow embedding of
    src/soc/intel/xeon_sp/chip_common.c

    The file models the read-resources callbacks of the IIO domains
    (the window calculator), the domain builders and the walker
    [attach_iio_stacks].  Fixed-width C integers are kept as [Z] and the
    wrap-around of each C conversion is written out with [Z.modulo].
    Code that stops the boot ([die], a failing [assert]) is modelled by the
    [halt] outcome of a small option monad. *)

From Stdlib Require Import ZArith List Bool Lia.
Import ListNotations.
Open Scope Z_scope.

(** ** Fixed-width integers *)

Definition u8 (x : Z) : Z := x mod 2 ^ 8.
Definition u16 (x : Z) : Z := x mod 2 ^ 16.
Definition u32 (x : Z) : Z := x mod 2 ^ 32.
Definition u64 (x : Z) : Z := x mod 2 ^ 64.

(** ** The halting monad: [None] is a boot stopped by [die] or [assert]. *)

Definition M (A : Type) : Type := option A.
Definition ret {A} (a : A) : M A := Some a.
Definition halt {A} : M A := None.
Definition bind {A B} (m : M A) (f : A -> M B) : M B :=
  match m with Some a => f a | None => None end.
Notation "x <- m ;; k" := (bind m (fun x => k))
  (at level 61, m at next level, right associativity).
Definition assert (b : bool) : M unit := if b then ret tt else halt.

(** ** The hand-off data: [STACK_RES] of the IIO UDS HOB.
    Field widths follow the FSP header: bus numbers are [UINT8], I/O
    ports [UINT16], 32-bit MMIO [UINT32], 64-bit MMIO [UINT64]. *)

Record STACK_RES := mkSTACK_RES {
  BusBase : Z;
  BusLimit : Z;
  IoBase : Z;
  PciResourceIoBase : Z;
  PciResourceIoLimit : Z;
  Mmio32Base : Z;
  PciResourceMem32Base : Z;
  PciResourceMem32Limit : Z;
  Mmio64Base : Z;
  PciResourceMem64Base : Z;
  PciResourceMem64Limit : Z
}.

Definition in_width (w x : Z) : bool := (0 <=? x) && (x <? 2 ^ w).

(** A descriptor whose fields all fit their C types. *)
Definition stack_res_wf (sr : STACK_RES) : bool :=
  in_width 8 (BusBase sr) && in_width 8 (BusLimit sr) &&
  in_width 16 (IoBase sr) && in_width 16 (PciResourceIoBase sr) &&
  in_width 16 (PciResourceIoLimit sr) &&
  in_width 32 (Mmio32Base sr) && in_width 32 (PciResourceMem32Base sr) &&
  in_width 32 (PciResourceMem32Limit sr) &&
  in_width 64 (Mmio64Base sr) && in_width 64 (PciResourceMem64Base sr) &&
  in_width 64 (PciResourceMem64Limit sr).

(** The HOB: [PlatformData.numofIIO] and
    [PlatformData.IIO_resource[socket].StackRes[stack]]. *)
Record IIO_UDS := mkIIO_UDS {
  numofIIO : Z;
  IIO_resource : Z -> Z -> STACK_RES
}.

(** ** Domain paths *)

(** Modelled from the spec: [init_xeon_domain_path] and the union
    [xeon_domain_path] (declared in soc/chip_common.h, not under src/):
    the socket, the stack and the base bus packed into one scalar, one byte
    each, bus in the low byte. *)
Definition init_xeon_domain_path (socket stack bus : Z) : Z :=
  u8 bus + 2 ^ 8 * u8 stack + 2 ^ 16 * u8 socket.

Definition dn_bus (domain_path : Z) : Z := u8 domain_path.
Definition dn_stack (domain_path : Z) : Z := u8 (domain_path / 2 ^ 8).
Definition dn_socket (domain_path : Z) : Z := u8 (domain_path / 2 ^ 16).

(** ** Resources *)

Definition IORESOURCE_IO : Z := 0x00000100.
Definition IORESOURCE_MEM : Z := 0x00000200.
Definition IORESOURCE_SUBTRACTIVE : Z := 0x00040000.
Definition IORESOURCE_ASSIGNED : Z := 0x40000000.

(** [struct resource]: [resource_t] fields are 64-bit. *)
Record resource := mkresource {
  res_index : Z;
  res_base : Z;
  res_limit : Z;
  res_size : Z;
  res_flags : Z
}.

(** The address class a window was emitted for.  The C code does not store
    it: it is the branch of the read-resources function that wrote the
    resource, kept here as a ghost tag next to each emitted resource. *)
Inductive iores_class := ClassIo | ClassMem32 | ClassMem64.

Definition window : Type := (iores_class * resource)%type.

(** One [if] block: when [cond] holds, [new_resource(dev, index++)] and the
    field writes [w]; the block returns the next index and its output. *)
Definition emit_if (cond : bool) (index : Z) (cls : iores_class)
    (w : Z -> resource) : Z * list window :=
  if cond then (index + 1, [(cls, w index)]) else (index, []).

(** ** Window calculator, standard role: the body of
    [iio_pci_domain_read_resources] after the descriptor lookup. *)
Definition iio_pci_windows (domain : Z) (sr : STACK_RES) : list window :=
  let index := 0 in
  let '(index, w_legacy) :=
    emit_if (domain =? 0) index ClassIo (fun i =>
      {| res_index := i; res_base := 0; res_size := 0x1000; res_limit := 0xfff;
         res_flags := Z.lor IORESOURCE_IO
                        (Z.lor IORESOURCE_SUBTRACTIVE IORESOURCE_ASSIGNED) |}) in
  let '(index, w_io) :=
    emit_if (PciResourceIoBase sr <? PciResourceIoLimit sr) index ClassIo (fun i =>
      let base := PciResourceIoBase sr in
      let limit := PciResourceIoLimit sr in
      {| res_index := i; res_base := base; res_limit := limit;
         res_size := u64 (limit - base + 1);
         res_flags := Z.lor IORESOURCE_IO IORESOURCE_ASSIGNED |}) in
  let '(index, w_mem32) :=
    emit_if (PciResourceMem32Base sr <? PciResourceMem32Limit sr) index ClassMem32 (fun i =>
      let base := PciResourceMem32Base sr in
      let limit := PciResourceMem32Limit sr in
      {| res_index := i; res_base := base; res_limit := limit;
         res_size := u64 (limit - base + 1);
         res_flags := Z.lor IORESOURCE_MEM IORESOURCE_ASSIGNED |}) in
  let '(_, w_mem64) :=
    emit_if (PciResourceMem64Base sr <? PciResourceMem64Limit sr) index ClassMem64 (fun i =>
      let base := PciResourceMem64Base sr in
      let limit := PciResourceMem64Limit sr in
      {| res_index := i; res_base := base; res_limit := limit;
         res_size := u64 (limit - base + 1);
         res_flags := Z.lor IORESOURCE_MEM IORESOURCE_ASSIGNED |}) in
  w_legacy ++ w_io ++ w_mem32 ++ w_mem64.

(** ** Window calculator, CXL-extension role: the body of
    [iio_cxl_domain_read_resources] after the descriptor lookup.
    [PciResourceIoBase - 1] is computed in [int] (a [UINT16] is promoted),
    [PciResourceMem32Base - 1] in 32-bit unsigned arithmetic and
    [PciResourceMem64Base - 1] in 64-bit; each is then stored in a
    64-bit [resource_t]. *)
Definition iio_cxl_windows (sr : STACK_RES) : list window :=
  let index := 0 in
  let '(index, w_io) :=
    emit_if (IoBase sr <? PciResourceIoBase sr) index ClassIo (fun i =>
      let base := IoBase sr in
      let limit := u64 (PciResourceIoBase sr - 1) in
      {| res_index := i; res_base := base; res_limit := limit;
         res_size := u64 (limit - base + 1);
         res_flags := Z.lor IORESOURCE_IO IORESOURCE_ASSIGNED |}) in
  let '(index, w_mem32) :=
    emit_if (Mmio32Base sr <? PciResourceMem32Base sr) index ClassMem32 (fun i =>
      let base := Mmio32Base sr in
      let limit := u32 (PciResourceMem32Base sr - 1) in
      {| res_index := i; res_base := base; res_limit := limit;
         res_size := u64 (limit - base + 1);
         res_flags := Z.lor IORESOURCE_MEM IORESOURCE_ASSIGNED |}) in
  let '(_, w_mem64) :=
    emit_if (Mmio64Base sr <? PciResourceMem64Base sr) index ClassMem64 (fun i =>
      let base := Mmio64Base sr in
      let limit := u64 (PciResourceMem64Base sr - 1) in
      {| res_index := i; res_base := base; res_limit := limit;
         res_size := u64 (limit - base + 1);
         res_flags := Z.lor IORESOURCE_MEM IORESOURCE_ASSIGNED |}) in
  w_io ++ w_mem32 ++ w_mem64.

(** ** Devices and the device tree *)

Inductive device_operations :=
  | iio_pcie_domain_ops
  | ubox_pcie_domain_ops
  | iio_cxl_domain_ops.

(** Modelled from the spec: the ACPI domain-type labels [DOMAIN_TYPE_*]
    (macros of soc/chip_common.h, not under src/); only their identity
    matters here. *)
Inductive domain_type :=
  | DOMAIN_TYPE_PCIE
  | DOMAIN_TYPE_UBX0
  | DOMAIN_TYPE_UBX1
  | DOMAIN_TYPE_CXL.

(** [struct bus]: the bus-number fields are [uint16_t]. *)
Record bus := mkbus {
  secondary : Z;
  subordinate : Z;
  max_subordinate : Z
}.

(** A domain device: its path ([dev->path.domain.domain]), its
    operations, the ACPI type set by [iio_domain_set_acpi_name], its
    downstream bus and its resource list. *)
Record device := mkdevice {
  dev_path : Z;
  dev_ops : option device_operations;
  dev_acpi_type : option domain_type;
  dev_downstream : option bus;
  dev_resources : list resource
}.

(** The children of the root bus [dev_root.downstream]. *)
Definition tree : Type := list device.

(** ** Descriptor lookup: [domain_to_stack_res].  The inner option is the
    returned C pointer ([None] = [NULL]); a failing
    [assert(hob != NULL)] halts.  The domains built in this file all carry
    a [DEVICE_PATH_DOMAIN] path, so the first assertion always holds. *)
Definition domain_to_stack_res (hob : option IIO_UDS) (dev : device)
    : M (option STACK_RES) :=
  let dn := dev_path dev in
  match hob with
  | None => halt
  | Some h => ret (Some (IIO_resource h (dn_socket dn) (dn_stack dn)))
  end.

(** [iio_pci_domain_read_resources], returning the windows it writes in
    the order it writes them. *)
Definition iio_pci_domain_read_resources (hob : option IIO_UDS) (dev : device)
    : M (list window) :=
  sr <- domain_to_stack_res hob dev ;;
  match sr with
  | None => ret []
  | Some sr => ret (iio_pci_windows (dev_path dev) sr)
  end.

(** [iio_cxl_domain_read_resources]. *)
Definition iio_cxl_domain_read_resources (hob : option IIO_UDS) (dev : device)
    : M (list window) :=
  sr <- domain_to_stack_res hob dev ;;
  match sr with
  | None => ret []
  | Some sr => ret (iio_cxl_windows sr)
  end.

(** [noop_read_resources]. *)
Definition noop_read_resources (hob : option IIO_UDS) (dev : device)
    : M (list window) := ret [].

(** The [.read_resources] member of each operations table. *)
Definition read_resources (ops : device_operations)
    : option IIO_UDS -> device -> M (list window) :=
  match ops with
  | iio_pcie_domain_ops => iio_pci_domain_read_resources
  | ubox_pcie_domain_ops => noop_read_resources
  | iio_cxl_domain_ops => iio_cxl_domain_read_resources
  end.

(** Modelled from the spec: [new_resource] (src/device/device_util.c, not
    under src/), the generic attach-resource primitive, followed by the
    field writes of the read-resources code: the device's resource with
    the same index is overwritten, or a new one is appended. *)
Fixpoint write_resource (l : list resource) (r : resource) : list resource :=
  match l with
  | [] => [r]
  | x :: l' =>
      if res_index x =? res_index r then r :: l' else x :: write_resource l' r
  end.

Definition set_dev_resources (dev : device) (l : list resource) : device :=
  {| dev_path := dev_path dev; dev_ops := dev_ops dev;
     dev_acpi_type := dev_acpi_type dev; dev_downstream := dev_downstream dev;
     dev_resources := l |}.

(** One call of a read-resources function, with its effect on the
    device's resource list. *)
Definition run_read_resources (ops : device_operations) (hob : option IIO_UDS)
    (dev : device) : M device :=
  ws <- read_resources ops hob dev ;;
  ret (set_dev_resources dev
         (fold_left write_resource (map snd ws) (dev_resources dev))).

(** ** Domain builder *)

(** Modelled from the spec: [alloc_dev] (src/device/device_util.c, not
    under src/): a fresh device with the given path and nothing else. *)
Definition alloc_dev (path : Z) : device :=
  {| dev_path := path; dev_ops := None; dev_acpi_type := None;
     dev_downstream := None; dev_resources := [] |}.

Fixpoint find_dev_path (l : tree) (path : Z) : option device :=
  match l with
  | [] => None
  | d :: l' => if dev_path d =? path then Some d else find_dev_path l' path
  end.

Fixpoint update_dev_path (l : tree) (path : Z) (f : device -> device) : tree :=
  match l with
  | [] => []
  | d :: l' =>
      if dev_path d =? path then f d :: l' else d :: update_dev_path l' path f
  end.

(** [alloc_find_dev(upstream, &path)] followed by the writes [f] to the
    device it returns: the child with that path is reused, otherwise a new
    child is appended.  The allocator is total here; its only other outcome
    is the [die] of the caller. *)
Definition alloc_find_dev_then (upstream : tree) (path : Z)
    (f : device -> device) : tree :=
  match find_dev_path upstream path with
  | Some _ => update_dev_path upstream path f
  | None => upstream ++ [f (alloc_dev path)]
  end.

(** [soc_create_domains]. [dp] is the packed [xeon_domain_path]. *)
Definition soc_create_domains (dp : Z) (upstream : tree) (bus_base bus_limit : Z)
    (type : domain_type) (ops : device_operations) : tree :=
  let path := init_xeon_domain_path (dn_socket dp) (dn_stack dp) bus_base in
  alloc_find_dev_then upstream path (fun domain =>
    {| dev_path := dev_path domain;
       dev_ops := Some ops;
       dev_acpi_type := Some type;
       dev_downstream := Some {| secondary := u16 bus_base;
                                 subordinate := u16 bus_base;
                                 max_subordinate := u16 bus_limit |};
       dev_resources := dev_resources domain |}).

Definition soc_create_pcie_domains (dp : Z) (upstream : tree) (sr : STACK_RES) : tree :=
  soc_create_domains dp upstream (BusBase sr) (BusLimit sr) DOMAIN_TYPE_PCIE
    iio_pcie_domain_ops.

Definition soc_create_ubox_domains (dp : Z) (upstream : tree) (sr : STACK_RES)
    : M tree :=
  _ <- assert (BusBase sr + 1 =? BusLimit sr) ;;
  let upstream := soc_create_domains dp upstream (BusBase sr) (BusBase sr)
                    DOMAIN_TYPE_UBX0 ubox_pcie_domain_ops in
  ret (soc_create_domains dp upstream (BusLimit sr) (BusLimit sr)
         DOMAIN_TYPE_UBX1 ubox_pcie_domain_ops).

Definition soc_create_cxl_domains (dp : Z) (bus : tree) (sr : STACK_RES) : M tree :=
  _ <- assert (BusBase sr + 1 <=? BusLimit sr) ;;
  let bus := soc_create_domains dp bus (BusBase sr) (BusBase sr)
               DOMAIN_TYPE_PCIE iio_pcie_domain_ops in
  ret (soc_create_domains dp bus (BusBase sr + 1) (BusLimit sr)
         DOMAIN_TYPE_CXL iio_cxl_domain_ops).

(** ** Walker: [attach_iio_stacks].  The stack classifiers, the
    configuration switches and the IOAT builder live outside this file;
    they are parameters of the walker. *)

Definition zrange (n : Z) : list Z := map Z.of_nat (seq 0 (Z.to_nat n)).

Section Walker.

Variable MAX_LOGIC_IIO_STACK : Z.
Variables is_ubox_stack_res is_iio_cxl_stack_res is_pcie_iio_stack_res
  is_ioat_iio_stack_res : STACK_RES -> bool.
Variables CONFIG_SOC_INTEL_HAS_CXL CONFIG_HAVE_IOAT_DOMAINS : bool.
Variable soc_create_ioat_domains : Z -> tree -> STACK_RES -> M tree.

(** The body of the inner loop for stack [x] of socket [s].  [dn] starts
    as [0] and only its socket and stack bytes are assigned. *)
Definition attach_stack (hob : IIO_UDS) (s x : Z) (root_bus : tree) : M tree :=
  let ri := IIO_resource hob s x in
  if BusLimit ri <? BusBase ri then ret root_bus
  else
    let dn := init_xeon_domain_path s x 0 in
    if is_ubox_stack_res ri then soc_create_ubox_domains dn root_bus ri
    else if CONFIG_SOC_INTEL_HAS_CXL && is_iio_cxl_stack_res ri then
      soc_create_cxl_domains dn root_bus ri
    else if is_pcie_iio_stack_res ri then
      ret (soc_create_pcie_domains dn root_bus ri)
    else if CONFIG_HAVE_IOAT_DOMAINS && is_ioat_iio_stack_res ri then
      soc_create_ioat_domains dn root_bus ri
    else ret root_bus.

Fixpoint attach_stacks (hob : IIO_UDS) (s : Z) (xs : list Z) (root_bus : tree)
    : M tree :=
  match xs with
  | [] => ret root_bus
  | x :: xs' => root_bus <- attach_stack hob s x root_bus ;;
                attach_stacks hob s xs' root_bus
  end.

Fixpoint attach_sockets (hob : IIO_UDS) (ss : list Z) (root_bus : tree) : M tree :=
  match ss with
  | [] => ret root_bus
  | s :: ss' => root_bus <- attach_stacks hob s (zrange MAX_LOGIC_IIO_STACK) root_bus ;;
                attach_sockets hob ss' root_bus
  end.

Definition attach_iio_stacks (hob : option IIO_UDS) (root_bus : tree) : M tree :=
  match hob with
  | None => ret root_bus
  | Some h => attach_sockets h (zrange (numofIIO h)) root_bus
  end.

End Walker.

(** ** Views used by the statements *)

Definition pci_res_base (X : iores_class) (sr : STACK_RES) : Z :=
  match X with
  | ClassIo => PciResourceIoBase sr
  | ClassMem32 => PciResourceMem32Base sr
  | ClassMem64 => PciResourceMem64Base sr
  end.

Definition pci_res_limit (X : iores_class) (sr : STACK_RES) : Z :=
  match X with
  | ClassIo => PciResourceIoLimit sr
  | ClassMem32 => PciResourceMem32Limit sr
  | ClassMem64 => PciResourceMem64Limit sr
  end.

(** The low end of the stack's total window of class [X]. *)
Definition total_base (X : iores_class) (sr : STACK_RES) : Z :=
  match X with
  | ClassIo => IoBase sr
  | ClassMem32 => Mmio32Base sr
  | ClassMem64 => Mmio64Base sr
  end.

Definition res_subtractive (r : resource) : bool :=
  negb (Z.land (res_flags r) IORESOURCE_SUBTRACTIVE =? 0).
Definition res_assigned (r : resource) : bool :=
  negb (Z.land (res_flags r) IORESOURCE_ASSIGNED =? 0).

(** The descriptor [domain_to_stack_res] selects for a device. *)
Definition stack_of (h : IIO_UDS) (dev : device) : STACK_RES :=
  IIO_resource h (dn_socket (dev_path dev)) (dn_stack (dev_path dev)).

(** A domain created by the builders with the given operations. *)
Definition domain_dev (path : Z) (ops : device_operations) (type : domain_type)
    (b : bus) : device :=
  {| dev_path := path; dev_ops := Some ops; dev_acpi_type := Some type;
     dev_downstream := Some b; dev_resources := [] |}.

(** ** Descriptors of the spec's scenarios, and proof helpers *)

Definition sr_scenario1 : STACK_RES :=
  {| BusBase := 0; BusLimit := 5; IoBase := 0; PciResourceIoBase := 0x2000;
     PciResourceIoLimit := 0x3FFF; Mmio32Base := 0; PciResourceMem32Base := 0;
     PciResourceMem32Limit := 0; Mmio64Base := 0; PciResourceMem64Base := 0;
     PciResourceMem64Limit := 0 |}.

Definition sr_scenario3 : STACK_RES :=
  {| BusBase := 8; BusLimit := 10; IoBase := 0; PciResourceIoBase := 0;
     PciResourceIoLimit := 0; Mmio32Base := 0x10000000;
     PciResourceMem32Base := 0x20000000; PciResourceMem32Limit := 0x2FFFFFFF;
     Mmio64Base := 0; PciResourceMem64Base := 0; PciResourceMem64Limit := 0 |}.

Ltac split_windows :=
  unfold iio_pci_windows, iio_cxl_windows, emit_if;
  repeat match goal with
  | |- context [if ?c then _ else _] => let E := fresh "E" in destruct c eqn:E
  end;
  rewrite ?Z.eqb_eq, ?Z.eqb_neq, ?Z.ltb_lt, ?Z.ltb_ge in *.

Ltac pick_in := (left; reflexivity) + (right; pick_in).

Ltac solve_windows :=
  repeat match goal with
  | H : _ \/ _ |- _ => destruct H
  | H : False |- _ => destruct H
  | H : (_, _) = (_, _) |- _ => inversion H; subst; clear H
  end; simpl in *; try discriminate; try lia;
  try (eexists; split; [pick_in | reflexivity]);
  try (repeat split; reflexivity).

(** A descriptor whose 64-bit PCI window is the whole 64-bit space. *)
Definition sr_full64 : STACK_RES :=
  {| BusBase := 1; BusLimit := 1; IoBase := 0; PciResourceIoBase := 0;
     PciResourceIoLimit := 0; Mmio32Base := 0; PciResourceMem32Base := 0;
     PciResourceMem32Limit := 0; Mmio64Base := 0; PciResourceMem64Base := 0;
     PciResourceMem64Limit := 2 ^ 64 - 1 |}.

Definition hob_of (sr : STACK_RES) : IIO_UDS :=
  {| numofIIO := 1; IIO_resource := fun _ _ => sr |}.

Definition dev_scenario (path : Z) (ops : device_operations) (type : domain_type)
    (bus_base bus_limit : Z) : device :=
  domain_dev path ops type
    {| secondary := bus_base; subordinate := bus_base; max_subordinate := bus_limit |}.

(** The fixed legacy I/O window written first by the domain with path 0. *)
Definition legacy_io_window : resource :=
  {| res_index := 0; res_base := 0; res_size := 0x1000; res_limit := 0xfff;
     res_flags := Z.lor IORESOURCE_IO
                    (Z.lor IORESOURCE_SUBTRACTIVE IORESOURCE_ASSIGNED) |}.

Definition class_rank (c : iores_class) : Z :=
  match c with ClassIo => 0 | ClassMem32 => 1 | ClassMem64 => 2 end.

(** Strictly increasing class ranks: at most one window per class, in the
    order I/O, memory-32, memory-64. *)
Fixpoint classes_ordered (l : list iores_class) : bool :=
  match l with
  | c :: ((c' :: _) as l') => (class_rank c <? class_rank c') && classes_ordered l'
  | _ => true
  end.

Definition sr_scenario2 : STACK_RES :=
  {| BusBase := 6; BusLimit := 7; IoBase := 0; PciResourceIoBase := 0;
     PciResourceIoLimit := 0; Mmio32Base := 0; PciResourceMem32Base := 0;
     PciResourceMem32Limit := 0; Mmio64Base := 0; PciResourceMem64Base := 0;
     PciResourceMem64Limit := 0 |}.

Definition sr_scenario4 : STACK_RES :=
  {| BusBase := 11; BusLimit := 10; IoBase := 0; PciResourceIoBase := 0;
     PciResourceIoLimit := 0; Mmio32Base := 0; PciResourceMem32Base := 0;
     PciResourceMem32Limit := 0; Mmio64Base := 0; PciResourceMem64Base := 0;
     PciResourceMem64Limit := 0 |}.

(** A HOB with one socket: stack 0 a PCIe stack on buses 0-5, stack 1 an
    unused slot, every other stack the descriptor of scenario 3. *)
Definition hob_walk : IIO_UDS :=
  {| numofIIO := 1;
     IIO_resource := fun _ x =>
       if x =? 0 then sr_scenario1 else if x =? 1 then sr_scenario4 else sr_scenario3 |}.

Definition no_ioat (dp : Z) (t : tree) (sr : STACK_RES) : M tree := ret t.

Fixpoint find_res (l : list resource) (i : Z) : option resource :=
  match l with
  | [] => None
  | x :: l' => if res_index x =? i then Some x else find_res l' i
  end.

(** ** Socket and stack of a device *)

Section DeviceLookup.

(** [dev->path.type == DEVICE_PATH_DOMAIN] and [dev_get_pci_domain]
    (src/device/, not under src/) are parameters here. *)
Variable path_is_domain : device -> bool.
Variable dev_get_pci_domain : device -> option device.



(** The PCI vendor and device IDs of a device and the global device list
    [all_devices] are parameters as well. *)
Variables dev_vendor dev_device : device -> Z.
Variable all_devices : list device.

(** [dev_find_device(vendor, device, from)]: the first device after
    [from] in the global list with these IDs.  A position in the list is
    the list of the devices that follow it; the result is the device found
    and the devices after it. *)
Fixpoint dev_find_device (vendor device_id : Z) (from : list device)
    : option (Datatypes.prod device (list device)) :=
  match from with
  | [] => None
  | d :: rest =>
      if (dev_vendor d =? vendor) && (dev_device d =? device_id)
      then Some (d, rest) else dev_find_device vendor device_id rest
  end.

(** The [while] loop of [dev_find_device_on_socket]; every iteration
    moves past at least one device, so [fuel] bounds the iterations. *)
Fixpoint find_device_on_socket_loop (fuel : nat) (socket vendor device_id : Z)
    (from : list device) : option device :=
  match fuel with
  | O => None
  | S fuel =>
      match dev_find_device vendor device_id from with
      | None => None
      | Some (dev, rest) =>
          match dev_get_pci_domain dev with
          | None => find_device_on_socket_loop fuel socket vendor device_id rest
          | Some domain =>
              if negb (dn_socket (dev_path domain) =? socket)
              then find_device_on_socket_loop fuel socket vendor device_id rest
              else Some dev
          end
      end
  end.

(** [dev_find_device_on_socket]: [socket] is a [uint8_t] parameter, the
    IDs are [u16]; the C parameter [device] is [device_id] here. *)
Definition dev_find_device_on_socket (socket vendor device_id : Z) : option device :=
  find_device_on_socket_loop (S (length all_devices)) (u8 socket) (u16 vendor)
    (u16 device_id) all_devices.

(** What the loop looks for, as a predicate on one device. *)
Definition on_socket_match (socket vendor device_id : Z) (d : device) : bool :=
  (dev_vendor d =? vendor) && (dev_device d =? device_id) &&
  match dev_get_pci_domain d with
  | Some domain => dn_socket (dev_path domain) =? socket
  | None => false
  end.

End DeviceLookup.

(** All paths of a tree are distinct. *)
Definition tree_paths (t : tree) : list Z := map dev_path t.

(** The two windows of one class overlap. *)
Definition windows_overlap (a b : resource) : Prop :=
  res_base a <= res_limit b /\ res_base b <= res_limit a.

(** The kind flag the code writes for a class. *)
Definition class_flag (c : iores_class) : Z :=
  match c with ClassIo => IORESOURCE_IO | _ => IORESOURCE_MEM end.

(** ** Checks and proofs *)

Example scenario1_windows :
  iio_pci_windows (init_xeon_domain_path 0 0 0) sr_scenario1 =
  [(ClassIo, {| res_index := 0; res_base := 0; res_limit := 0xfff; res_size := 0x1000;
                res_flags := 0x40040100 |});
   (ClassIo, {| res_index := 1; res_base := 0x2000; res_limit := 0x3FFF;
                res_size := 0x2000; res_flags := 0x40000100 |})].
Proof. reflexivity. Qed.

Example scenario3_windows :
  iio_pci_windows (init_xeon_domain_path 0 2 8) sr_scenario3 =
  [(ClassMem32, {| res_index := 0; res_base := 0x20000000; res_limit := 0x2FFFFFFF;
                   res_size := 0x10000000; res_flags := 0x40000200 |})] /\
  iio_cxl_windows sr_scenario3 =
  [(ClassMem32, {| res_index := 0; res_base := 0x10000000; res_limit := 0x1FFFFFFF;
                   res_size := 0x10000000; res_flags := 0x40000200 |})].
Proof. split; reflexivity. Qed.

Example walk_scenario :
  attach_iio_stacks 3 (fun _ => false) (fun _ => false) (fun _ => true) (fun _ => false)
    false false no_ioat (Some hob_walk) [] =
  Some [dev_scenario (init_xeon_domain_path 0 0 0) iio_pcie_domain_ops DOMAIN_TYPE_PCIE 0 5;
        dev_scenario (init_xeon_domain_path 0 2 8) iio_pcie_domain_ops DOMAIN_TYPE_PCIE 8 10].
Proof. reflexivity. Qed.

(** ** Basic facts *)

Lemma iio_pci_domain_read_resources_some (h : IIO_UDS) (dev : device) :
  iio_pci_domain_read_resources (Some h) dev =
  Some (iio_pci_windows (dev_path dev) (stack_of h dev)).
Proof. reflexivity. Qed.

Lemma iio_cxl_domain_read_resources_some (h : IIO_UDS) (dev : device) :
  iio_cxl_domain_read_resources (Some h) dev = Some (iio_cxl_windows (stack_of h dev)).
Proof. reflexivity. Qed.

Lemma u64_small (x : Z) : 0 <= x < 2 ^ 64 -> u64 x = x.
Proof. intros. unfold u64. apply Z.mod_small. assumption. Qed.

Lemma in_width_spec (w x : Z) : in_width w x = true <-> 0 <= x < 2 ^ w.
Proof. unfold in_width. rewrite andb_true_iff, Z.leb_le, Z.ltb_lt. tauto. Qed.

Lemma stack_res_wf_spec (sr : STACK_RES) :
  stack_res_wf sr = true ->
  0 <= BusBase sr < 2 ^ 8 /\ 0 <= BusLimit sr < 2 ^ 8 /\
  0 <= IoBase sr < 2 ^ 16 /\ 0 <= PciResourceIoBase sr < 2 ^ 16 /\
  0 <= PciResourceIoLimit sr < 2 ^ 16 /\
  0 <= Mmio32Base sr < 2 ^ 32 /\ 0 <= PciResourceMem32Base sr < 2 ^ 32 /\
  0 <= PciResourceMem32Limit sr < 2 ^ 32 /\
  0 <= Mmio64Base sr < 2 ^ 64 /\ 0 <= PciResourceMem64Base sr < 2 ^ 64 /\
  0 <= PciResourceMem64Limit sr < 2 ^ 64.
Proof.
  unfold stack_res_wf. rewrite !andb_true_iff, !in_width_spec. tauto.
Qed.

(** Standard role: the discovered (non-subtractive) window of each class,
    with its size as the 64-bit [resource_t] subtraction computes it. *)
Lemma iio_pci_windows_discovered (domain : Z) (sr : STACK_RES) (X : iores_class) :
  ((exists r, In (X, r) (iio_pci_windows domain sr) /\ res_subtractive r = false)
    <-> pci_res_base X sr < pci_res_limit X sr) /\
  (forall r, In (X, r) (iio_pci_windows domain sr) -> res_subtractive r = false ->
     res_base r = pci_res_base X sr /\ res_limit r = pci_res_limit X sr /\
     res_size r = u64 (res_limit r - res_base r + 1) /\ res_assigned r = true).
Proof.
  destruct X; split_windows; simpl;
  (split; [split; [intros (r & Hin & Hs) | intro Hlt] | intros r Hin Hs]);
  solve_windows.
Qed.

(** CXL-extension role, for a descriptor whose fields fit their types. *)
Lemma iio_cxl_windows_spec (sr : STACK_RES) (X : iores_class) :
  stack_res_wf sr = true ->
  ((exists r, In (X, r) (iio_cxl_windows sr)) <-> total_base X sr < pci_res_base X sr) /\
  (forall r, In (X, r) (iio_cxl_windows sr) ->
     res_base r = total_base X sr /\ res_limit r = pci_res_base X sr - 1 /\
     res_size r = res_limit r - res_base r + 1 /\ res_assigned r = true).
Proof.
  intros Hwf. apply stack_res_wf_spec in Hwf.
  destruct X; split_windows; simpl;
  (split; [split; [intros (r & Hin) | intro Hlt] | intros r Hin]);
  solve_windows; try (eexists; pick_in);
  unfold u64, u32; rewrite ?(Z.mod_small (_ - 1)) by lia;
  (repeat split; try reflexivity; try lia); apply Z.mod_small; lia.
Qed.

(** ** Claims: the window calculator *)

(** C1 (counterexample): on a standard-role domain whose descriptor spans
    the whole 64-bit space with its 64-bit PCI window, the discovered
    memory-64 window has size 0, not limit - base + 1 = 2^64: the size is
    computed in the 64-bit [resource_t] and wraps. *)
Lemma iio_pci_full64_size_wraps :
  stack_res_wf sr_full64 = true /\
  exists ws r,
    read_resources iio_pcie_domain_ops (Some (hob_of sr_full64))
      (dev_scenario (init_xeon_domain_path 0 0 1) iio_pcie_domain_ops
         DOMAIN_TYPE_PCIE 1 1) = Some ws /\
    In (ClassMem64, r) ws /\ res_subtractive r = false /\
    res_size r = 0 /\ res_size r <> res_limit r - res_base r + 1.
Proof.
  split; [reflexivity |].
  eexists; eexists; split; [reflexivity |].
  split; [simpl; left; reflexivity |].
  vm_compute. split; [reflexivity |]. split; [reflexivity | discriminate].
Qed.

(** C1 (as amended): for every standard-role domain and each address class
    X, a discovered (non-subtractive) window of class X is emitted iff
    PciResourceXBase < PciResourceXLimit; it spans exactly
    [PciResourceXBase, PciResourceXLimit], carries the assigned flag and
    has size (limit - base + 1) mod 2^64, which is limit - base + 1
    whenever that is below 2^64. *)
Theorem iio_pci_domain_discovered_windows (h : IIO_UDS) (dev : device)
    (X : iores_class) :
  exists ws, read_resources iio_pcie_domain_ops (Some h) dev = Some ws /\
  ((exists r, In (X, r) ws /\ res_subtractive r = false)
     <-> pci_res_base X (stack_of h dev) < pci_res_limit X (stack_of h dev)) /\
  (forall r, In (X, r) ws -> res_subtractive r = false ->
     res_base r = pci_res_base X (stack_of h dev) /\
     res_limit r = pci_res_limit X (stack_of h dev) /\
     res_size r = u64 (res_limit r - res_base r + 1) /\
     (res_limit r - res_base r + 1 < 2 ^ 64 ->
        res_size r = res_limit r - res_base r + 1) /\
     res_assigned r = true).
Proof.
  eexists. split; [apply iio_pci_domain_read_resources_some |].
  destruct (iio_pci_windows_discovered (dev_path dev) (stack_of h dev) X)
    as [Hiff Hw].
  split; [exact Hiff |].
  intros r Hin Hs. destruct (Hw r Hin Hs) as (Hb & Hl & Hsz & Ha).
  repeat split; try assumption.
  intros Hlt. rewrite Hsz. apply u64_small.
  pose proof (proj1 Hiff (ex_intro _ r (conj Hin Hs))). rewrite Hb, Hl in *. lia.
Qed.

(** C2: for every CXL-extension-role domain whose descriptor fits its
    types and each address class X, a window of class X is emitted iff
    TotalXBase < PciResourceXBase; it spans exactly
    [TotalXBase, PciResourceXBase - 1], has size limit - base + 1 and
    carries the assigned flag. *)
Theorem iio_cxl_domain_windows (h : IIO_UDS) (dev : device) (X : iores_class) :
  stack_res_wf (stack_of h dev) = true ->
  exists ws, read_resources iio_cxl_domain_ops (Some h) dev = Some ws /\
  ((exists r, In (X, r) ws)
     <-> total_base X (stack_of h dev) < pci_res_base X (stack_of h dev)) /\
  (forall r, In (X, r) ws ->
     res_base r = total_base X (stack_of h dev) /\
     res_limit r = pci_res_base X (stack_of h dev) - 1 /\
     res_size r = res_limit r - res_base r + 1 /\ res_assigned r = true).
Proof.
  intros Hwf. eexists. split; [apply iio_cxl_domain_read_resources_some |].
  apply iio_cxl_windows_spec. exact Hwf.
Qed.

Lemma iio_cxl_domain_windows_witness :
  stack_res_wf (stack_of (hob_of sr_scenario3)
    (dev_scenario (init_xeon_domain_path 0 2 9) iio_cxl_domain_ops
       DOMAIN_TYPE_CXL 9 10)) = true /\
  exists ws, read_resources iio_cxl_domain_ops (Some (hob_of sr_scenario3))
    (dev_scenario (init_xeon_domain_path 0 2 9) iio_cxl_domain_ops
       DOMAIN_TYPE_CXL 9 10) = Some ws /\
  ((exists r, In (ClassMem32, r) ws)
     <-> total_base ClassMem32 sr_scenario3 < pci_res_base ClassMem32 sr_scenario3) /\
  (forall r, In (ClassMem32, r) ws ->
     res_base r = total_base ClassMem32 sr_scenario3 /\
     res_limit r = pci_res_base ClassMem32 sr_scenario3 - 1 /\
     res_size r = res_limit r - res_base r + 1 /\ res_assigned r = true).
Proof.
  split; [reflexivity |].
  apply (iio_cxl_domain_windows (hob_of sr_scenario3)
           (dev_scenario (init_xeon_domain_path 0 2 9) iio_cxl_domain_ops
              DOMAIN_TYPE_CXL 9 10) ClassMem32).
  reflexivity.
Defined.

Lemma init_xeon_domain_path_zero (socket stack bus : Z) :
  0 <= socket < 256 -> 0 <= stack < 256 -> 0 <= bus < 256 ->
  init_xeon_domain_path socket stack bus = 0 <-> socket = 0 /\ stack = 0 /\ bus = 0.
Proof.
  intros Hs Hx Hb. unfold init_xeon_domain_path, u8.
  rewrite !Z.mod_small by (simpl; lia). lia.
Qed.

Lemma iio_pci_windows_split (domain : Z) (sr : STACK_RES) :
  exists discovered,
    iio_pci_windows domain sr =
      (if domain =? 0 then [(ClassIo, legacy_io_window)] else []) ++ discovered /\
    classes_ordered (map fst discovered) = true /\
    (forall c r, In (c, r) discovered -> res_subtractive r = false).
Proof.
  split_windows; simpl; eexists; (split; [reflexivity |]);
  (split; [reflexivity |]); simpl; intros c r Hin; solve_windows.
Qed.

Lemma iio_cxl_windows_ordered (sr : STACK_RES) :
  classes_ordered (map fst (iio_cxl_windows sr)) = true /\
  (forall c r, In (c, r) (iio_cxl_windows sr) -> res_subtractive r = false).
Proof.
  split_windows; simpl; (split; [reflexivity |]); intros c r Hin; solve_windows.
Qed.

(** C3 (counterexample): the domain of socket 1, stack 0 whose path
    encodes bus-base 0 gets no legacy window: its sequence begins with the
    discovered I/O window [0x2000, 0x3FFF]. *)
Lemma legacy_io_window_other_socket :
  dn_bus (init_xeon_domain_path 1 0 0) = 0 /\
  read_resources iio_pcie_domain_ops (Some (hob_of sr_scenario1))
    (dev_scenario (init_xeon_domain_path 1 0 0) iio_pcie_domain_ops
       DOMAIN_TYPE_PCIE 0 5) =
  Some [(ClassIo, {| res_index := 0; res_base := 0x2000; res_limit := 0x3FFF;
                     res_size := 0x2000; res_flags := 0x40000100 |})].
Proof. split; reflexivity. Qed.

(** C3 (as amended): a standard-role domain whose path packs socket,
    stack and bus base all 0 (the domain path value 0) gets the legacy
    I/O window [0, 0xFFF], subtractive and assigned, as the first window,
    before every discovered window; every other standard-role domain,
    including one with bus base 0 on another socket or stack, gets no
    subtractive window. *)
Theorem iio_pci_legacy_io_window (h : IIO_UDS) (dev : device)
    (socket stack bus : Z) :
  0 <= socket < 256 -> 0 <= stack < 256 -> 0 <= bus < 256 ->
  dev_path dev = init_xeon_domain_path socket stack bus ->
  res_base legacy_io_window = 0 /\ res_limit legacy_io_window = 0xfff /\
  res_subtractive legacy_io_window = true /\ res_assigned legacy_io_window = true /\
  exists ws, read_resources iio_pcie_domain_ops (Some h) dev = Some ws /\
  (socket = 0 /\ stack = 0 /\ bus = 0 ->
     exists rest, ws = (ClassIo, legacy_io_window) :: rest /\
                  forall c r, In (c, r) rest -> res_subtractive r = false) /\
  (~ (socket = 0 /\ stack = 0 /\ bus = 0) ->
     forall c r, In (c, r) ws -> res_subtractive r = false).
Proof.
  intros Hs Hx Hb Hp.
  do 4 (split; [reflexivity |]).
  eexists. split; [apply iio_pci_domain_read_resources_some |].
  destruct (iio_pci_windows_split (dev_path dev) (stack_of h dev))
    as (d & Heq & _ & Hd).
  rewrite Heq, Hp. split.
  - intros Hz. apply init_xeon_domain_path_zero in Hz; [| lia ..].
    rewrite Hz. simpl. exists d. split; [reflexivity | exact Hd].
  - intros Hnz. assert (init_xeon_domain_path socket stack bus <> 0) as Hne.
    { rewrite init_xeon_domain_path_zero by lia. exact Hnz. }
    apply Z.eqb_neq in Hne. rewrite Hne. exact Hd.
Qed.

Lemma iio_pci_legacy_io_window_witness :
  (0 <= 0 < 256 /\ 0 <= 0 < 256 /\ 0 <= 0 < 256 /\
   dev_path (dev_scenario (init_xeon_domain_path 0 0 0) iio_pcie_domain_ops
               DOMAIN_TYPE_PCIE 0 5) = init_xeon_domain_path 0 0 0) /\
  (res_base legacy_io_window = 0 /\ res_limit legacy_io_window = 0xfff /\
  res_subtractive legacy_io_window = true /\ res_assigned legacy_io_window = true /\
  exists ws, read_resources iio_pcie_domain_ops (Some (hob_of sr_scenario1))
    (dev_scenario (init_xeon_domain_path 0 0 0) iio_pcie_domain_ops
       DOMAIN_TYPE_PCIE 0 5) = Some ws /\
  (0 = 0 /\ 0 = 0 /\ 0 = 0 ->
     exists rest, ws = (ClassIo, legacy_io_window) :: rest /\
                  forall c r, In (c, r) rest -> res_subtractive r = false) /\
  (~ (0 = 0 /\ 0 = 0 /\ 0 = 0) ->
     forall c r, In (c, r) ws -> res_subtractive r = false)).
Proof.
  split; [repeat split; lia |].
  apply (iio_pci_legacy_io_window (hob_of sr_scenario1)
           (dev_scenario (init_xeon_domain_path 0 0 0) iio_pcie_domain_ops
              DOMAIN_TYPE_PCIE 0 5) 0 0 0); try lia; reflexivity.
Defined.

(** C4 (counterexample): the domain with path 0 and a discovered I/O
    window emits two I/O windows. *)
Lemma domain_zero_two_io_windows :
  exists ws,
    read_resources iio_pcie_domain_ops (Some (hob_of sr_scenario1))
      (dev_scenario (init_xeon_domain_path 0 0 0) iio_pcie_domain_ops
         DOMAIN_TYPE_PCIE 0 5) = Some ws /\
    map fst ws = [ClassIo; ClassIo].
Proof. eexists. split; reflexivity. Qed.

(** C4 (as amended): every invocation of a domain's read-resources
    behaviour produces its discovered (non-subtractive) windows at most one
    per address class, in the order I/O, memory-32, memory-64; the only
    other window is the legacy subtractive I/O window, which comes first
    and only for the standard-role domain with domain path 0. *)
Theorem read_resources_class_order (ops : device_operations)
    (hob : option IIO_UDS) (dev : device) (ws : list window) :
  read_resources ops hob dev = Some ws ->
  exists discovered,
    ws = (match ops with
          | iio_pcie_domain_ops =>
              if dev_path dev =? 0 then [(ClassIo, legacy_io_window)] else []
          | _ => []
          end) ++ discovered /\
    classes_ordered (map fst discovered) = true /\
    (forall c r, In (c, r) discovered -> res_subtractive r = false).
Proof.
  intros H. destruct ops, hob as [h |]; simpl in H; try discriminate;
  injection H as <-.
  - apply iio_pci_windows_split.
  - exists []. simpl. split; [reflexivity |]. split; [reflexivity | tauto].
  - exists []. simpl. split; [reflexivity |]. split; [reflexivity | tauto].
  - exists (iio_cxl_windows (stack_of h dev)). split; [reflexivity |].
    apply iio_cxl_windows_ordered.
Qed.

Lemma read_resources_class_order_witness :
  read_resources iio_pcie_domain_ops (Some (hob_of sr_scenario1))
    (dev_scenario (init_xeon_domain_path 0 0 0) iio_pcie_domain_ops
       DOMAIN_TYPE_PCIE 0 5) =
  Some (iio_pci_windows 0 sr_scenario1) /\
  exists discovered,
    iio_pci_windows 0 sr_scenario1 =
      [(ClassIo, legacy_io_window)] ++ discovered /\
    classes_ordered (map fst discovered) = true /\
    (forall c r, In (c, r) discovered -> res_subtractive r = false).
Proof.
  split; [reflexivity |].
  apply (read_resources_class_order iio_pcie_domain_ops (Some (hob_of sr_scenario1))
           (dev_scenario (init_xeon_domain_path 0 0 0) iio_pcie_domain_ops
              DOMAIN_TYPE_PCIE 0 5)).
  reflexivity.
Defined.

(** ** Claims: the domain builder *)

Lemma find_dev_path_app_none (l1 l2 : tree) (p : Z) :
  find_dev_path l1 p = None -> find_dev_path l2 p = None ->
  find_dev_path (l1 ++ l2) p = None.
Proof.
  induction l1 as [| d l1 IH]; simpl; [auto |].
  destruct (dev_path d =? p); [discriminate | exact IH].
Qed.

Lemma find_dev_path_app_some (l1 l2 : tree) (p : Z) :
  find_dev_path l1 p = None -> find_dev_path (l1 ++ l2) p = find_dev_path l2 p.
Proof.
  induction l1 as [| d l1 IH]; simpl; [auto |].
  destruct (dev_path d =? p); [discriminate | exact IH].
Qed.

Lemma find_dev_path_update (l : tree) (p : Z) (f : device -> device) :
  (forall d, dev_path (f d) = dev_path d) ->
  find_dev_path (update_dev_path l p f) p = option_map f (find_dev_path l p).
Proof.
  intros Hf. induction l as [| d l IH]; simpl; [reflexivity |].
  destruct (dev_path d =? p) eqn:E; simpl.
  - rewrite Hf, E. reflexivity.
  - rewrite E. exact IH.
Qed.

Lemma soc_create_domains_fresh (dp : Z) (t : tree) (bus_base bus_limit : Z)
    (type : domain_type) (ops : device_operations) :
  find_dev_path t (init_xeon_domain_path (dn_socket dp) (dn_stack dp) bus_base) = None ->
  soc_create_domains dp t bus_base bus_limit type ops =
  t ++ [domain_dev (init_xeon_domain_path (dn_socket dp) (dn_stack dp) bus_base)
          ops type {| secondary := u16 bus_base; subordinate := u16 bus_base;
                      max_subordinate := u16 bus_limit |}].
Proof.
  intros H. unfold soc_create_domains, alloc_find_dev_then. rewrite H. reflexivity.
Qed.

Lemma u16_small (x : Z) : 0 <= x < 2 ^ 16 -> u16 x = x.
Proof. intros. unfold u16. apply Z.mod_small. assumption. Qed.

Lemma init_xeon_domain_path_bus_neq (socket stack b1 b2 : Z) :
  0 <= b1 < 256 -> 0 <= b2 < 256 -> b1 <> b2 ->
  init_xeon_domain_path socket stack b1 <> init_xeon_domain_path socket stack b2.
Proof.
  intros H1 H2 Hne. unfold init_xeon_domain_path, u8.
  rewrite (Z.mod_small b1), (Z.mod_small b2) by (simpl; lia). lia.
Qed.

(** C5: for a CXL-capable stack with BusBase + 1 <= BusLimit, the builder
    appends exactly two domains to a tree that holds neither of their
    paths: domain A on the single bus BusBase with the standard
    read-resources role and the PCIe label, and domain B on
    [BusBase + 1, BusLimit] with the CXL-extension role and the CXL
    label. *)
Theorem soc_create_cxl_domains_two (dp : Z) (t : tree) (sr : STACK_RES) :
  stack_res_wf sr = true ->
  BusBase sr + 1 <= BusLimit sr ->
  find_dev_path t (init_xeon_domain_path (dn_socket dp) (dn_stack dp) (BusBase sr)) = None ->
  find_dev_path t (init_xeon_domain_path (dn_socket dp) (dn_stack dp) (BusBase sr + 1)) = None ->
  soc_create_cxl_domains dp t sr =
  Some (t ++
    [domain_dev (init_xeon_domain_path (dn_socket dp) (dn_stack dp) (BusBase sr))
       iio_pcie_domain_ops DOMAIN_TYPE_PCIE
       {| secondary := BusBase sr; subordinate := BusBase sr;
          max_subordinate := BusBase sr |};
     domain_dev (init_xeon_domain_path (dn_socket dp) (dn_stack dp) (BusBase sr + 1))
       iio_cxl_domain_ops DOMAIN_TYPE_CXL
       {| secondary := BusBase sr + 1; subordinate := BusBase sr + 1;
          max_subordinate := BusLimit sr |}]).
Proof.
  intros Hwf Hle HA HB. apply stack_res_wf_spec in Hwf.
  unfold soc_create_cxl_domains, assert.
  replace (BusBase sr + 1 <=? BusLimit sr) with true by (symmetry; apply Z.leb_le; lia).
  simpl. rewrite (soc_create_domains_fresh dp t (BusBase sr) (BusBase sr)) by exact HA.
  rewrite soc_create_domains_fresh.
  - rewrite <- app_assoc. simpl.
    rewrite !u16_small by (simpl in *; lia). reflexivity.
  - apply find_dev_path_app_none; [exact HB |]. simpl.
    destruct (_ =? _) eqn:E; [| reflexivity].
    apply Z.eqb_eq in E. exfalso. revert E.
    apply init_xeon_domain_path_bus_neq; simpl in *; lia.
Qed.

Lemma soc_create_cxl_domains_two_witness :
  (stack_res_wf sr_scenario3 = true /\ BusBase sr_scenario3 + 1 <= BusLimit sr_scenario3 /\
   find_dev_path [] (init_xeon_domain_path (dn_socket (init_xeon_domain_path 0 2 0))
                       (dn_stack (init_xeon_domain_path 0 2 0)) (BusBase sr_scenario3)) = None /\
   find_dev_path [] (init_xeon_domain_path (dn_socket (init_xeon_domain_path 0 2 0))
                       (dn_stack (init_xeon_domain_path 0 2 0)) (BusBase sr_scenario3 + 1)) = None) /\
  soc_create_cxl_domains (init_xeon_domain_path 0 2 0) [] sr_scenario3 =
  Some ([] ++
    [domain_dev (init_xeon_domain_path (dn_socket (init_xeon_domain_path 0 2 0))
                   (dn_stack (init_xeon_domain_path 0 2 0)) (BusBase sr_scenario3))
       iio_pcie_domain_ops DOMAIN_TYPE_PCIE
       {| secondary := BusBase sr_scenario3; subordinate := BusBase sr_scenario3;
          max_subordinate := BusBase sr_scenario3 |};
     domain_dev (init_xeon_domain_path (dn_socket (init_xeon_domain_path 0 2 0))
                   (dn_stack (init_xeon_domain_path 0 2 0)) (BusBase sr_scenario3 + 1))
       iio_cxl_domain_ops DOMAIN_TYPE_CXL
       {| secondary := BusBase sr_scenario3 + 1; subordinate := BusBase sr_scenario3 + 1;
          max_subordinate := BusLimit sr_scenario3 |}]).
Proof.
  split; [split; [reflexivity | split; [simpl; lia | split; reflexivity]] |].
  apply soc_create_cxl_domains_two; [reflexivity | simpl; lia | reflexivity | reflexivity].
Defined.

(** C6: for a management (UBOX) stack with BusBase + 1 = BusLimit, the
    builder appends exactly two single-bus domains to a tree that holds
    neither of their paths, on BusBase and on BusLimit, with the distinct
    labels UBX0 and UBX1 and the UBOX operations, whose read-resources
    behaviour emits no window on any invocation. *)
Theorem soc_create_ubox_domains_two (dp : Z) (t : tree) (sr : STACK_RES) :
  stack_res_wf sr = true ->
  BusBase sr + 1 = BusLimit sr ->
  find_dev_path t (init_xeon_domain_path (dn_socket dp) (dn_stack dp) (BusBase sr)) = None ->
  find_dev_path t (init_xeon_domain_path (dn_socket dp) (dn_stack dp) (BusLimit sr)) = None ->
  soc_create_ubox_domains dp t sr =
  Some (t ++
    [domain_dev (init_xeon_domain_path (dn_socket dp) (dn_stack dp) (BusBase sr))
       ubox_pcie_domain_ops DOMAIN_TYPE_UBX0
       {| secondary := BusBase sr; subordinate := BusBase sr;
          max_subordinate := BusBase sr |};
     domain_dev (init_xeon_domain_path (dn_socket dp) (dn_stack dp) (BusLimit sr))
       ubox_pcie_domain_ops DOMAIN_TYPE_UBX1
       {| secondary := BusLimit sr; subordinate := BusLimit sr;
          max_subordinate := BusLimit sr |}]) /\
  DOMAIN_TYPE_UBX0 <> DOMAIN_TYPE_UBX1 /\
  (forall hob dev, read_resources ubox_pcie_domain_ops hob dev = Some []).
Proof.
  intros Hwf Heq HA HB. apply stack_res_wf_spec in Hwf.
  split; [| split; [discriminate | reflexivity]].
  unfold soc_create_ubox_domains, assert.
  replace (BusBase sr + 1 =? BusLimit sr) with true by (symmetry; apply Z.eqb_eq; lia).
  simpl. rewrite (soc_create_domains_fresh dp t (BusBase sr) (BusBase sr)) by exact HA.
  rewrite soc_create_domains_fresh.
  - rewrite <- app_assoc. simpl.
    rewrite !u16_small by (simpl in *; lia). reflexivity.
  - apply find_dev_path_app_none; [exact HB |]. simpl.
    destruct (_ =? _) eqn:E; [| reflexivity].
    apply Z.eqb_eq in E. exfalso. revert E.
    apply init_xeon_domain_path_bus_neq; simpl in *; lia.
Qed.

Lemma soc_create_ubox_domains_two_witness :
  (stack_res_wf sr_scenario2 = true /\ BusBase sr_scenario2 + 1 = BusLimit sr_scenario2 /\
   find_dev_path [] (init_xeon_domain_path (dn_socket (init_xeon_domain_path 0 1 0))
                       (dn_stack (init_xeon_domain_path 0 1 0)) (BusBase sr_scenario2)) = None /\
   find_dev_path [] (init_xeon_domain_path (dn_socket (init_xeon_domain_path 0 1 0))
                       (dn_stack (init_xeon_domain_path 0 1 0)) (BusLimit sr_scenario2)) = None) /\
  soc_create_ubox_domains (init_xeon_domain_path 0 1 0) [] sr_scenario2 =
  Some ([] ++
    [domain_dev (init_xeon_domain_path (dn_socket (init_xeon_domain_path 0 1 0))
                   (dn_stack (init_xeon_domain_path 0 1 0)) (BusBase sr_scenario2))
       ubox_pcie_domain_ops DOMAIN_TYPE_UBX0
       {| secondary := BusBase sr_scenario2; subordinate := BusBase sr_scenario2;
          max_subordinate := BusBase sr_scenario2 |};
     domain_dev (init_xeon_domain_path (dn_socket (init_xeon_domain_path 0 1 0))
                   (dn_stack (init_xeon_domain_path 0 1 0)) (BusLimit sr_scenario2))
       ubox_pcie_domain_ops DOMAIN_TYPE_UBX1
       {| secondary := BusLimit sr_scenario2; subordinate := BusLimit sr_scenario2;
          max_subordinate := BusLimit sr_scenario2 |}]) /\
  DOMAIN_TYPE_UBX0 <> DOMAIN_TYPE_UBX1 /\
  (forall hob dev, read_resources ubox_pcie_domain_ops hob dev = Some []).
Proof.
  split; [split; [reflexivity | split; [reflexivity | split; reflexivity]] |].
  apply soc_create_ubox_domains_two; reflexivity.
Defined.

(** C8 (counterexample): the single domain of a PCIe stack on buses 0-5
    gets a bus with max-subordinate 5, not its base bus 0. *)
Lemma pcie_domain_max_subordinate_is_limit :
  soc_create_pcie_domains (init_xeon_domain_path 0 0 0) [] sr_scenario1 =
  [domain_dev (init_xeon_domain_path 0 0 0) iio_pcie_domain_ops DOMAIN_TYPE_PCIE
     {| secondary := 0; subordinate := 0; max_subordinate := 5 |}] /\
  max_subordinate {| secondary := 0; subordinate := 0; max_subordinate := 5 |} <> 0.
Proof. split; [reflexivity | discriminate]. Qed.

(** C8 (as amended): every domain the builder creates or reuses gets a
    bus with secondary = subordinate = its bus base and max-subordinate =
    its bus limit. *)
Theorem soc_create_domains_bus (dp : Z) (t : tree) (bus_base bus_limit : Z)
    (type : domain_type) (ops : device_operations) :
  0 <= bus_base < 2 ^ 16 -> 0 <= bus_limit < 2 ^ 16 ->
  exists d,
    find_dev_path (soc_create_domains dp t bus_base bus_limit type ops)
      (init_xeon_domain_path (dn_socket dp) (dn_stack dp) bus_base) = Some d /\
    dev_downstream d = Some {| secondary := bus_base; subordinate := bus_base;
                               max_subordinate := bus_limit |} /\
    dev_ops d = Some ops /\ dev_acpi_type d = Some type.
Proof.
  intros Hb Hl. unfold soc_create_domains, alloc_find_dev_then.
  rewrite !u16_small by assumption.
  destruct (find_dev_path t _) as [d0 |] eqn:E.
  - rewrite find_dev_path_update by reflexivity. rewrite E. simpl.
    eexists. split; [reflexivity |]. repeat split.
  - rewrite find_dev_path_app_some by exact E. simpl. rewrite Z.eqb_refl.
    eexists. split; [reflexivity |]. repeat split.
Qed.

Lemma soc_create_domains_bus_witness :
  (0 <= 0 < 2 ^ 16 /\ 0 <= 5 < 2 ^ 16) /\
  exists d,
    find_dev_path (soc_create_domains (init_xeon_domain_path 0 0 0) [] 0 5
                     DOMAIN_TYPE_PCIE iio_pcie_domain_ops)
      (init_xeon_domain_path (dn_socket (init_xeon_domain_path 0 0 0))
         (dn_stack (init_xeon_domain_path 0 0 0)) 0) = Some d /\
    dev_downstream d = Some {| secondary := 0; subordinate := 0;
                               max_subordinate := 5 |} /\
    dev_ops d = Some iio_pcie_domain_ops /\ dev_acpi_type d = Some DOMAIN_TYPE_PCIE.
Proof.
  split; [split; simpl; lia |].
  apply soc_create_domains_bus; simpl; lia.
Defined.

(** ** Claims: the walker *)

(** C7: a stack whose descriptor has BusBase > BusLimit creates no domain
    and does not stop the walk: its iteration returns the tree unchanged,
    and the socket's loop over stacks gives the same result as the loop
    without that stack. *)
Theorem attach_iio_stacks_skips_unused
    (is_ubox is_cxl is_pcie is_ioat : STACK_RES -> bool)
    (has_cxl have_ioat : bool) (create_ioat : Z -> tree -> STACK_RES -> M tree)
    (hob : IIO_UDS) (s x : Z) (xs1 xs2 : list Z) (root_bus : tree) :
  BusBase (IIO_resource hob s x) > BusLimit (IIO_resource hob s x) ->
  attach_stack is_ubox is_cxl is_pcie is_ioat has_cxl have_ioat create_ioat
    hob s x root_bus = Some root_bus /\
  attach_stacks is_ubox is_cxl is_pcie is_ioat has_cxl have_ioat create_ioat
    hob s (xs1 ++ x :: xs2) root_bus =
  attach_stacks is_ubox is_cxl is_pcie is_ioat has_cxl have_ioat create_ioat
    hob s (xs1 ++ xs2) root_bus.
Proof.
  intros Hgt.
  assert (Hstep : attach_stack is_ubox is_cxl is_pcie is_ioat has_cxl have_ioat
                    create_ioat hob s x root_bus = Some root_bus).
  { unfold attach_stack.
    replace (BusLimit (IIO_resource hob s x) <? BusBase (IIO_resource hob s x))
      with true by (symmetry; apply Z.ltb_lt; lia).
    reflexivity. }
  split; [exact Hstep |].
  revert root_bus Hstep. induction xs1 as [| y xs1 IH]; intros root_bus Hstep; simpl.
  - rewrite Hstep. reflexivity.
  - destruct (attach_stack is_ubox is_cxl is_pcie is_ioat has_cxl have_ioat
                create_ioat hob s y root_bus) as [t' |]; simpl; [| reflexivity].
    apply IH. unfold attach_stack in *.
    replace (BusLimit (IIO_resource hob s x) <? BusBase (IIO_resource hob s x))
      with true by (symmetry; apply Z.ltb_lt; lia).
    reflexivity.
Qed.

Lemma attach_iio_stacks_skips_unused_witness :
  BusBase (IIO_resource hob_walk 0 1) > BusLimit (IIO_resource hob_walk 0 1) /\
  (attach_stack (fun _ => false) (fun _ => false) (fun _ => true) (fun _ => false)
     false false no_ioat hob_walk 0 1 [] = Some [] /\
   attach_stacks (fun _ => false) (fun _ => false) (fun _ => true) (fun _ => false)
     false false no_ioat hob_walk 0 ([0] ++ 1 :: [2]) [] =
   attach_stacks (fun _ => false) (fun _ => false) (fun _ => true) (fun _ => false)
     false false no_ioat hob_walk 0 ([0] ++ [2]) []).
Proof.
  split; [simpl; lia |].
  apply attach_iio_stacks_skips_unused. simpl. lia.
Defined.

(** ** Claims: repeated read-resources calls *)

Lemma write_resource_found (l : list resource) (r : resource) :
  find_res l (res_index r) = Some r -> write_resource l r = l.
Proof.
  induction l as [| x l IH]; simpl; [discriminate |].
  destruct (res_index x =? res_index r) eqn:E.
  - intros H. injection H as ->. reflexivity.
  - intros H. rewrite (IH H). reflexivity.
Qed.

Lemma find_res_write_same (l : list resource) (r : resource) :
  find_res (write_resource l r) (res_index r) = Some r.
Proof.
  induction l as [| x l IH]; simpl.
  - rewrite Z.eqb_refl. reflexivity.
  - destruct (res_index x =? res_index r) eqn:E; simpl.
    + rewrite Z.eqb_refl. reflexivity.
    + rewrite E. exact IH.
Qed.

Lemma find_res_write_other (l : list resource) (r : resource) (i : Z) :
  i <> res_index r -> find_res (write_resource l r) i = find_res l i.
Proof.
  intros Hne. induction l as [| x l IH]; simpl.
  - apply Z.eqb_neq in Hne. rewrite Z.eqb_sym, Hne. reflexivity.
  - destruct (res_index x =? res_index r) eqn:E; simpl.
    + apply Z.eqb_eq in E. rewrite E.
      apply Z.eqb_neq in Hne. rewrite Z.eqb_sym, Hne. reflexivity.
    + destruct (res_index x =? i); [reflexivity | exact IH].
Qed.

Lemma find_res_fold_other (rs : list resource) (l : list resource) (i : Z) :
  ~ In i (map res_index rs) ->
  find_res (fold_left write_resource rs l) i = find_res l i.
Proof.
  revert l. induction rs as [| r rs IH]; intros l Hni; simpl; [reflexivity |].
  simpl in Hni. rewrite IH by tauto. apply find_res_write_other. intuition.
Qed.

Lemma find_res_fold_written (rs : list resource) (l : list resource) :
  NoDup (map res_index rs) ->
  forall r, In r rs -> find_res (fold_left write_resource rs l) (res_index r) = Some r.
Proof.
  revert l. induction rs as [| r0 rs IH]; intros l Hnd r Hin; simpl in *; [tauto |].
  inversion Hnd as [| ? ? Hni Hnd']; subst.
  destruct Hin as [<- | Hin].
  - rewrite find_res_fold_other by exact Hni. apply find_res_write_same.
  - apply IH; assumption.
Qed.

Lemma fold_write_resource_stable (rs : list resource) (l : list resource) :
  (forall r, In r rs -> find_res l (res_index r) = Some r) ->
  fold_left write_resource rs l = l.
Proof.
  revert l. induction rs as [| r rs IH]; intros l H; simpl; [reflexivity |].
  rewrite write_resource_found by (apply H; left; reflexivity).
  apply IH. intros r' Hr'. apply H. right. exact Hr'.
Qed.

Lemma fold_write_resource_idem (rs : list resource) (l : list resource) :
  NoDup (map res_index rs) ->
  fold_left write_resource rs (fold_left write_resource rs l) =
  fold_left write_resource rs l.
Proof.
  intros Hnd. apply fold_write_resource_stable.
  apply find_res_fold_written. exact Hnd.
Qed.

Lemma read_resources_indices_nodup (ops : device_operations) (hob : option IIO_UDS)
    (dev : device) (ws : list window) :
  read_resources ops hob dev = Some ws -> NoDup (map res_index (map snd ws)).
Proof.
  intros H. destruct ops, hob as [h |]; simpl in H; try discriminate;
  injection H as <-; try constructor;
  split_windows; simpl;
  repeat (constructor; [simpl; lia |]); constructor.
Qed.

Lemma read_resources_set_dev_resources (ops : device_operations)
    (hob : option IIO_UDS) (dev : device) (l : list resource) :
  read_resources ops hob (set_dev_resources dev l) = read_resources ops hob dev.
Proof. destruct ops; reflexivity. Qed.

(** C9: invoking a domain's read-resources behaviour a second time yields
    the same window sequence (same windows, with the same index, base,
    limit, size and flags, in the same order) and leaves the domain's
    resource list as the first invocation left it. *)
Theorem read_resources_idempotent (ops : device_operations) (hob : option IIO_UDS)
    (dev dev' : device) :
  run_read_resources ops hob dev = Some dev' ->
  read_resources ops hob dev' = read_resources ops hob dev /\
  run_read_resources ops hob dev' = Some dev'.
Proof.
  unfold run_read_resources. intros H.
  destruct (read_resources ops hob dev) as [ws |] eqn:E; simpl in H; [| discriminate].
  injection H as <-.
  rewrite read_resources_set_dev_resources, E. split; [reflexivity |].
  simpl. rewrite fold_write_resource_idem.
  - reflexivity.
  - rewrite map_map. rewrite <- (map_map snd res_index).
    exact (read_resources_indices_nodup ops hob dev ws E).
Qed.

Lemma read_resources_idempotent_witness :
  run_read_resources iio_pcie_domain_ops (Some (hob_of sr_scenario1))
    (dev_scenario 0 iio_pcie_domain_ops DOMAIN_TYPE_PCIE 0 5) =
  Some (set_dev_resources (dev_scenario 0 iio_pcie_domain_ops DOMAIN_TYPE_PCIE 0 5)
          (map snd (iio_pci_windows 0 sr_scenario1))) /\
  (read_resources iio_pcie_domain_ops (Some (hob_of sr_scenario1))
     (set_dev_resources (dev_scenario 0 iio_pcie_domain_ops DOMAIN_TYPE_PCIE 0 5)
        (map snd (iio_pci_windows 0 sr_scenario1))) =
   read_resources iio_pcie_domain_ops (Some (hob_of sr_scenario1))
     (dev_scenario 0 iio_pcie_domain_ops DOMAIN_TYPE_PCIE 0 5) /\
   run_read_resources iio_pcie_domain_ops (Some (hob_of sr_scenario1))
     (set_dev_resources (dev_scenario 0 iio_pcie_domain_ops DOMAIN_TYPE_PCIE 0 5)
        (map snd (iio_pci_windows 0 sr_scenario1))) =
   Some (set_dev_resources (dev_scenario 0 iio_pcie_domain_ops DOMAIN_TYPE_PCIE 0 5)
           (map snd (iio_pci_windows 0 sr_scenario1)))).
Proof.
  split; [reflexivity |].
  apply read_resources_idempotent. reflexivity.
Defined.

(** ** Claims: the descriptor lookup *)

(** C10: [domain_to_stack_res] never returns [NULL]: with the HOB present
    it returns the descriptor of the domain's socket and stack (without it
    the assertion halts), so both read-resources functions always reach
    their window-emission code. *)
Theorem domain_to_stack_res_non_null (h : IIO_UDS) (dev : device) :
  (forall hob, domain_to_stack_res hob dev <> ret None) /\
  domain_to_stack_res None dev = halt /\
  domain_to_stack_res (Some h) dev = ret (Some (stack_of h dev)) /\
  iio_pci_domain_read_resources (Some h) dev =
    ret (iio_pci_windows (dev_path dev) (stack_of h dev)) /\
  iio_cxl_domain_read_resources (Some h) dev = ret (iio_cxl_windows (stack_of h dev)).
Proof.
  split; [intros [h' |]; discriminate |].
  repeat split.
Qed.

(** ** Further properties *)

Lemma u8_bound (x : Z) : 0 <= u8 x < 256.
Proof. unfold u8. apply Z.mod_pos_bound. reflexivity. Qed.

Lemma domain_path_fields (socket stack bus : Z) :
  dn_socket (init_xeon_domain_path socket stack bus) = u8 socket /\
  dn_stack (init_xeon_domain_path socket stack bus) = u8 stack /\
  dn_bus (init_xeon_domain_path socket stack bus) = u8 bus.
Proof.
  unfold dn_socket, dn_stack, dn_bus, init_xeon_domain_path.
  pose proof (u8_bound socket) as Hs. pose proof (u8_bound stack) as Hx.
  pose proof (u8_bound bus) as Hb.
  set (e := u8 socket) in *. set (c := u8 stack) in *. set (a := u8 bus) in *.
  unfold u8. change (2 ^ 8) with 256. change (2 ^ 16) with 65536.
  assert (H1 : (a + 256 * c + 65536 * e) / 256 = c + 256 * e).
  { symmetry. apply (Z.div_unique _ _ _ a); lia. }
  assert (H2 : (a + 256 * c + 65536 * e) / 65536 = e).
  { symmetry. apply (Z.div_unique _ _ _ (a + 256 * c)); lia. }
  rewrite H1, H2.
  split; [apply Z.mod_small; lia |].
  split; [symmetry; apply (Z.mod_unique _ _ e); lia |].
  symmetry. apply (Z.mod_unique _ _ (c + 256 * e)); lia.
Qed.


Lemma soc_create_domains_find (dp : Z) (t : tree) (bus_base bus_limit : Z)
    (type : domain_type) (ops : device_operations) :
  exists d,
    find_dev_path (soc_create_domains dp t bus_base bus_limit type ops)
      (init_xeon_domain_path (dn_socket dp) (dn_stack dp) bus_base) = Some d /\
    dev_path d = init_xeon_domain_path (dn_socket dp) (dn_stack dp) bus_base /\
    dev_ops d = Some ops.
Proof.
  unfold soc_create_domains, alloc_find_dev_then.
  destruct (find_dev_path t _) as [d0 |] eqn:E.
  - rewrite find_dev_path_update by reflexivity. rewrite E. simpl.
    eexists. split; [reflexivity |]. split; [| reflexivity].
    simpl. clear - E. induction t as [| d t IH]; simpl in E; [discriminate |].
    destruct (dev_path d =? _) eqn:E'; [| exact (IH E)].
    injection E as <-. apply Z.eqb_eq. exact E'.
  - rewrite find_dev_path_app_some by exact E. simpl. rewrite Z.eqb_refl.
    eexists. split; [reflexivity |]. split; reflexivity.
Qed.

(** A domain the builder creates for stack [stack] of socket [socket]
    (the walker's [dn]) finds, through [domain_to_stack_res], exactly the
    descriptor of that stack. *)
Theorem soc_create_domains_stack_res (h : IIO_UDS) (socket stack : Z) (t : tree)
    (bus_base bus_limit : Z) (type : domain_type) (ops : device_operations) :
  0 <= socket < 256 -> 0 <= stack < 256 ->
  exists d,
    find_dev_path
      (soc_create_domains (init_xeon_domain_path socket stack 0) t bus_base bus_limit
         type ops)
      (init_xeon_domain_path socket stack bus_base) = Some d /\
    dev_ops d = Some ops /\
    domain_to_stack_res (Some h) d = ret (Some (IIO_resource h socket stack)).
Proof.
  intros Hs Hx.
  destruct (domain_path_fields socket stack 0) as (Es & Ex & _).
  assert (Us : u8 socket = socket) by (unfold u8; apply Z.mod_small; simpl; lia).
  assert (Ux : u8 stack = stack) by (unfold u8; apply Z.mod_small; simpl; lia).
  destruct (soc_create_domains_find (init_xeon_domain_path socket stack 0) t
              bus_base bus_limit type ops) as (d & Hf & Hp & Ho).
  rewrite Es, Ex, Us, Ux in Hf, Hp.
  exists d. split; [exact Hf |]. split; [exact Ho |].
  unfold domain_to_stack_res. rewrite Hp.
  destruct (domain_path_fields socket stack bus_base) as (Es' & Ex' & _).
  rewrite Es', Ex', Us, Ux. reflexivity.
Qed.

Lemma soc_create_domains_stack_res_witness :
  (0 <= 1 < 256 /\ 0 <= 2 < 256) /\
  exists d,
    find_dev_path
      (soc_create_domains (init_xeon_domain_path 1 2 0) [] 8 10 DOMAIN_TYPE_PCIE
         iio_pcie_domain_ops)
      (init_xeon_domain_path 1 2 8) = Some d /\
    dev_ops d = Some iio_pcie_domain_ops /\
    domain_to_stack_res (Some hob_walk) d = ret (Some (IIO_resource hob_walk 1 2)).
Proof.
  split; [split; lia |].
  apply soc_create_domains_stack_res; lia.
Defined.



Lemma dev_find_device_find (dev_vendor dev_device : device -> Z)
    (get_domain : device -> option device) (socket vendor device_id : Z)
    (l : list device) :
  find (on_socket_match get_domain dev_vendor dev_device socket vendor device_id) l =
  match dev_find_device dev_vendor dev_device vendor device_id l with
  | None => None
  | Some (d, rest) =>
      if on_socket_match get_domain dev_vendor dev_device socket vendor device_id d
      then Some d
      else find (on_socket_match get_domain dev_vendor dev_device socket vendor
                   device_id) rest
  end /\
  (forall d rest, dev_find_device dev_vendor dev_device vendor device_id l =
                  Some (d, rest) -> (length rest < length l)%nat).
Proof.
  induction l as [| x l [IH IHlen]]; simpl; [split; [reflexivity | discriminate] |].
  unfold on_socket_match at 1.
  destruct ((dev_vendor x =? vendor) && (dev_device x =? device_id)) eqn:E; simpl.
  - split; [| intros d rest H; injection H as <- <-; lia].
    unfold on_socket_match. rewrite E. reflexivity.
  - split; [exact IH |]. intros d rest H. specialize (IHlen d rest H). lia.
Qed.

Lemma find_device_on_socket_loop_find (dev_vendor dev_device : device -> Z)
    (get_domain : device -> option device) (socket vendor device_id : Z)
    (fuel : nat) (l : list device) :
  (length l < fuel)%nat ->
  find_device_on_socket_loop get_domain dev_vendor dev_device fuel socket vendor
    device_id l =
  find (on_socket_match get_domain dev_vendor dev_device socket vendor device_id) l.
Proof.
  revert l. induction fuel as [| fuel IH]; intros l Hl; [lia |].
  destruct (dev_find_device_find dev_vendor dev_device get_domain socket vendor
              device_id l) as [Hf Hlen].
  rewrite Hf. simpl.
  destruct (dev_find_device dev_vendor dev_device vendor device_id l)
    as [[d rest] |] eqn:E; [| reflexivity].
  pose proof (Hlen d rest eq_refl) as Hr.
  assert (Hv : (dev_vendor d =? vendor) && (dev_device d =? device_id) = true).
  { clear - E. induction l as [| x l IH]; simpl in E; [discriminate |].
    destruct ((dev_vendor x =? vendor) && (dev_device x =? device_id)) eqn:Ex.
    - injection E as <- _. exact Ex.
    - exact (IH E). }
  unfold on_socket_match. rewrite Hv. simpl.
  destruct (get_domain d) as [dom |].
  - destruct (dn_socket (dev_path dom) =? socket); simpl; [reflexivity |].
    apply IH. lia.
  - apply IH. lia.
Qed.

(** [dev_find_device_on_socket] returns the first device of the global
    list with the given vendor and device IDs whose PCI domain lies on the
    given socket, and [NULL] when there is none. *)
Theorem dev_find_device_on_socket_first
    (get_domain : device -> option device) (dev_vendor dev_device : device -> Z)
    (all_devices : list device) (socket vendor device_id : Z) :
  dev_find_device_on_socket get_domain dev_vendor dev_device all_devices
    socket vendor device_id =
  find (on_socket_match get_domain dev_vendor dev_device (u8 socket) (u16 vendor)
          (u16 device_id)) all_devices /\
  (forall d, dev_find_device_on_socket get_domain dev_vendor dev_device all_devices
               socket vendor device_id = Some d ->
     In d all_devices /\ dev_vendor d = u16 vendor /\ dev_device d = u16 device_id /\
     exists domain, get_domain d = Some domain /\
                    dn_socket (dev_path domain) = u8 socket) /\
  (dev_find_device_on_socket get_domain dev_vendor dev_device all_devices
     socket vendor device_id = None ->
   forall d, In d all_devices ->
     on_socket_match get_domain dev_vendor dev_device (u8 socket) (u16 vendor)
       (u16 device_id) d = false).
Proof.
  assert (Heq : dev_find_device_on_socket get_domain dev_vendor dev_device all_devices
                  socket vendor device_id =
                find (on_socket_match get_domain dev_vendor dev_device (u8 socket)
                        (u16 vendor) (u16 device_id)) all_devices).
  { apply find_device_on_socket_loop_find. lia. }
  split; [exact Heq |]. rewrite Heq. split.
  - intros d Hd. apply find_some in Hd as [Hin Hm].
    unfold on_socket_match in Hm. rewrite !andb_true_iff, !Z.eqb_eq in Hm.
    destruct Hm as [[Hv Hdv] Hs].
    split; [exact Hin |]. split; [exact Hv |]. split; [exact Hdv |].
    destruct (get_domain d) as [dom |]; [| discriminate].
    exists dom. split; [reflexivity | apply Z.eqb_eq; exact Hs].
  - intros Hn d Hin. exact (find_none _ _ Hn d Hin).
Qed.

(** Every window either role emits is non-empty ([base <= limit]), starts
    at a non-negative address, carries the kind flag of its class and the
    assigned flag, and has size [limit - base + 1] as [resource_t]
    arithmetic computes it; the CXL role needs a descriptor whose fields fit
    their types. *)
Theorem read_resources_window_shape (ops : device_operations) (h : IIO_UDS)
    (dev : device) (ws : list window) :
  stack_res_wf (stack_of h dev) = true ->
  read_resources ops (Some h) dev = Some ws ->
  forall c r, In (c, r) ws ->
    0 <= res_base r <= res_limit r /\
    Z.land (res_flags r) (class_flag c) <> 0 /\ res_assigned r = true /\
    res_size r = u64 (res_limit r - res_base r + 1).
Proof.
  intros Hwf H. apply stack_res_wf_spec in Hwf.
  destruct ops; simpl in H; injection H as <-; [| simpl; tauto |];
  unfold stack_of in Hwf;
  split_windows; simpl; intros c r Hin;
  repeat match goal with
  | H : _ \/ _ |- _ => destruct H
  | H : False |- _ => destruct H
  | H : (_, _) = (_, _) |- _ => inversion H; subst; clear H
  end; simpl;
  unfold u64, u32; rewrite ?(Z.mod_small (_ - 1)) by lia;
  (split; [lia |]); (split; [discriminate |]); (split; reflexivity).
Qed.

Lemma read_resources_window_shape_witness :
  stack_res_wf (stack_of hob_walk
    (dev_scenario (init_xeon_domain_path 0 0 0) iio_pcie_domain_ops DOMAIN_TYPE_PCIE 0 5))
    = true /\
  read_resources iio_pcie_domain_ops (Some hob_walk)
    (dev_scenario (init_xeon_domain_path 0 0 0) iio_pcie_domain_ops DOMAIN_TYPE_PCIE 0 5)
    = Some (iio_pci_windows 0 sr_scenario1) /\
  forall c r, In (c, r) (iio_pci_windows 0 sr_scenario1) ->
    0 <= res_base r <= res_limit r /\
    Z.land (res_flags r) (class_flag c) <> 0 /\ res_assigned r = true /\
    res_size r = u64 (res_limit r - res_base r + 1).
Proof.
  split; [reflexivity |]. split; [reflexivity |].
  apply (read_resources_window_shape iio_pcie_domain_ops hob_walk
           (dev_scenario (init_xeon_domain_path 0 0 0) iio_pcie_domain_ops
              DOMAIN_TYPE_PCIE 0 5)); reflexivity.
Defined.



(** Two domains reading the same descriptor, one with the standard role
    and one with the CXL-extension role (the two domains of a CXL stack):
    in each class the CXL window ends strictly below the discovered
    standard window, so the two never overlap. *)
Theorem cxl_pair_windows_disjoint (h : IIO_UDS) (devA devB : device)
    (wsA wsB : list window) (X : iores_class) (rA rB : resource) :
  stack_of h devA = stack_of h devB ->
  stack_res_wf (stack_of h devA) = true ->
  read_resources iio_pcie_domain_ops (Some h) devA = Some wsA ->
  read_resources iio_cxl_domain_ops (Some h) devB = Some wsB ->
  In (X, rA) wsA -> res_subtractive rA = false -> In (X, rB) wsB ->
  res_limit rB < res_base rA /\ ~ windows_overlap rA rB.
Proof.
  intros Hsame Hwf HA HB InA Hs InB.
  simpl in HA, HB. injection HA as <-. injection HB as <-.
  fold (stack_of h devA) in InA. fold (stack_of h devB) in InB.
  rewrite <- Hsame in InB.
  destruct (iio_pci_windows_discovered (dev_path devA) (stack_of h devA) X)
    as [_ HwA].
  destruct (HwA rA InA Hs) as (HbA & _ & _ & _).
  destruct (iio_cxl_windows_spec (stack_of h devA) X Hwf) as [_ HwB].
  destruct (HwB rB InB) as (_ & HlB & _ & _).
  unfold windows_overlap. lia.
Qed.

Lemma cxl_pair_windows_disjoint_witness :
  (stack_of (hob_of sr_scenario3)
     (dev_scenario (init_xeon_domain_path 0 2 8) iio_pcie_domain_ops DOMAIN_TYPE_PCIE 8 8) =
   stack_of (hob_of sr_scenario3)
     (dev_scenario (init_xeon_domain_path 0 2 9) iio_cxl_domain_ops DOMAIN_TYPE_CXL 9 10) /\
   stack_res_wf (stack_of (hob_of sr_scenario3)
     (dev_scenario (init_xeon_domain_path 0 2 8) iio_pcie_domain_ops DOMAIN_TYPE_PCIE 8 8))
     = true) /\
  res_limit {| res_index := 0; res_base := 0x10000000; res_limit := 0x1FFFFFFF;
               res_size := 0x10000000; res_flags := 0x40000200 |} <
  res_base {| res_index := 0; res_base := 0x20000000; res_limit := 0x2FFFFFFF;
              res_size := 0x10000000; res_flags := 0x40000200 |} /\
  ~ windows_overlap
      {| res_index := 0; res_base := 0x20000000; res_limit := 0x2FFFFFFF;
         res_size := 0x10000000; res_flags := 0x40000200 |}
      {| res_index := 0; res_base := 0x10000000; res_limit := 0x1FFFFFFF;
         res_size := 0x10000000; res_flags := 0x40000200 |}.
Proof.
  split; [split; reflexivity |].
  apply (cxl_pair_windows_disjoint (hob_of sr_scenario3)
    (dev_scenario (init_xeon_domain_path 0 2 8) iio_pcie_domain_ops DOMAIN_TYPE_PCIE 8 8)
    (dev_scenario (init_xeon_domain_path 0 2 9) iio_cxl_domain_ops DOMAIN_TYPE_CXL 9 10)
    (iio_pci_windows (init_xeon_domain_path 0 2 8) sr_scenario3)
    (iio_cxl_windows sr_scenario3) ClassMem32);
  try reflexivity; simpl; left; reflexivity.
Defined.

Lemma update_dev_path_paths (l : tree) (p : Z) (f : device -> device) :
  (forall d, dev_path (f d) = dev_path d) ->
  tree_paths (update_dev_path l p f) = tree_paths l.
Proof.
  intros Hf. induction l as [| d l IH]; simpl; [reflexivity |].
  destruct (dev_path d =? p); simpl; [rewrite Hf; reflexivity | rewrite IH; reflexivity].
Qed.

Lemma find_dev_path_none_iff (l : tree) (p : Z) :
  find_dev_path l p = None <-> ~ In p (tree_paths l).
Proof.
  induction l as [| d l IH]; simpl; [tauto |].
  destruct (dev_path d =? p) eqn:E.
  - apply Z.eqb_eq in E. split; [discriminate | tauto].
  - apply Z.eqb_neq in E. rewrite IH. intuition.
Qed.

Lemma soc_create_domains_paths_cases (dp : Z) (t : tree) (bus_base bus_limit : Z)
    (type : domain_type) (ops : device_operations) :
  (In (init_xeon_domain_path (dn_socket dp) (dn_stack dp) bus_base) (tree_paths t) /\
   tree_paths (soc_create_domains dp t bus_base bus_limit type ops) = tree_paths t) \/
  (~ In (init_xeon_domain_path (dn_socket dp) (dn_stack dp) bus_base) (tree_paths t) /\
   tree_paths (soc_create_domains dp t bus_base bus_limit type ops) =
   tree_paths t ++ [init_xeon_domain_path (dn_socket dp) (dn_stack dp) bus_base]).
Proof.
  unfold soc_create_domains, alloc_find_dev_then.
  destruct (find_dev_path t _) as [d0 |] eqn:E.
  - left. split.
    + destruct (in_dec Z.eq_dec
                  (init_xeon_domain_path (dn_socket dp) (dn_stack dp) bus_base)
                  (tree_paths t)) as [Hi | Hn]; [exact Hi |].
      apply find_dev_path_none_iff in Hn. congruence.
    + apply update_dev_path_paths. reflexivity.
  - right. split; [apply find_dev_path_none_iff; exact E |].
    unfold tree_paths. rewrite map_app. reflexivity.
Qed.

(** [soc_create_domains] either reuses the child with the domain's path,
    leaving the list of paths as it was, or appends one child with a path
    that was not there before; it never removes or reorders a child. *)
Theorem soc_create_domains_paths (dp : Z) (t : tree) (bus_base bus_limit : Z)
    (type : domain_type) (ops : device_operations) :
  (In (init_xeon_domain_path (dn_socket dp) (dn_stack dp) bus_base) (tree_paths t) /\
   tree_paths (soc_create_domains dp t bus_base bus_limit type ops) = tree_paths t) \/
  (~ In (init_xeon_domain_path (dn_socket dp) (dn_stack dp) bus_base) (tree_paths t) /\
   tree_paths (soc_create_domains dp t bus_base bus_limit type ops) =
   tree_paths t ++ [init_xeon_domain_path (dn_socket dp) (dn_stack dp) bus_base]).
Proof. apply soc_create_domains_paths_cases. Qed.

Lemma soc_create_domains_grows (dp : Z) (t : tree) (bus_base bus_limit : Z)
    (type : domain_type) (ops : device_operations) :
  NoDup (tree_paths t) ->
  NoDup (tree_paths (soc_create_domains dp t bus_base bus_limit type ops)) /\
  incl (tree_paths t) (tree_paths (soc_create_domains dp t bus_base bus_limit type ops)).
Proof.
  intros Hnd.
  destruct (soc_create_domains_paths_cases dp t bus_base bus_limit type ops)
    as [[_ ->] | [Hni ->]].
  - split; [exact Hnd | apply incl_refl].
  - split.
    + apply NoDup_app; [exact Hnd | repeat constructor; simpl; tauto |].
      intros x Hx [<- | []]. exact (Hni Hx).
    + apply incl_appl, incl_refl.
Qed.

(** The walker keeps the domain paths under the root bus distinct and
    never drops one, provided the external IOAT builder does the same. *)
Theorem attach_iio_stacks_paths (MAX_LOGIC_IIO_STACK : Z)
    (is_ubox is_cxl is_pcie is_ioat : STACK_RES -> bool)
    (has_cxl have_ioat : bool) (create_ioat : Z -> tree -> STACK_RES -> M tree)
    (hob : option IIO_UDS) (root_bus root_bus' : tree) :
  (forall dp t sr t', create_ioat dp t sr = Some t' -> NoDup (tree_paths t) ->
     NoDup (tree_paths t') /\ incl (tree_paths t) (tree_paths t')) ->
  NoDup (tree_paths root_bus) ->
  attach_iio_stacks MAX_LOGIC_IIO_STACK is_ubox is_cxl is_pcie is_ioat has_cxl
    have_ioat create_ioat hob root_bus = Some root_bus' ->
  NoDup (tree_paths root_bus') /\ incl (tree_paths root_bus) (tree_paths root_bus').
Proof.
  intros Hioat Hnd Hrun.
  assert (Hstep : forall h s x t t',
    NoDup (tree_paths t) ->
    attach_stack is_ubox is_cxl is_pcie is_ioat has_cxl have_ioat create_ioat
      h s x t = Some t' ->
    NoDup (tree_paths t') /\ incl (tree_paths t) (tree_paths t')).
  { intros h s x t t' Hn H. unfold attach_stack in H.
    destruct (_ <? _); [injection H as <-; split; [exact Hn | apply incl_refl] |].
    set (ri := IIO_resource h s x) in H. set (dn := init_xeon_domain_path s x 0) in H.
    destruct (is_ubox ri).
    { unfold soc_create_ubox_domains, assert in H.
      destruct (_ =? _); simpl in H; [| discriminate]. injection H as <-.
      destruct (soc_create_domains_grows dn t (BusBase ri) (BusBase ri)
                  DOMAIN_TYPE_UBX0 ubox_pcie_domain_ops Hn) as [Hn1 Hi1].
      destruct (soc_create_domains_grows dn _ (BusLimit ri) (BusLimit ri)
                  DOMAIN_TYPE_UBX1 ubox_pcie_domain_ops Hn1) as [Hn2 Hi2].
      split; [exact Hn2 | exact (incl_tran Hi1 Hi2)]. }
    destruct (has_cxl && is_cxl ri).
    { unfold soc_create_cxl_domains, assert in H.
      destruct (_ <=? _); simpl in H; [| discriminate]. injection H as <-.
      destruct (soc_create_domains_grows dn t (BusBase ri) (BusBase ri)
                  DOMAIN_TYPE_PCIE iio_pcie_domain_ops Hn) as [Hn1 Hi1].
      destruct (soc_create_domains_grows dn _ (BusBase ri + 1) (BusLimit ri)
                  DOMAIN_TYPE_CXL iio_cxl_domain_ops Hn1) as [Hn2 Hi2].
      split; [exact Hn2 | exact (incl_tran Hi1 Hi2)]. }
    destruct (is_pcie ri).
    { injection H as <-. apply soc_create_domains_grows. exact Hn. }
    destruct (have_ioat && is_ioat ri).
    { exact (Hioat dn t ri t' H Hn). }
    injection H as <-. split; [exact Hn | apply incl_refl]. }
  assert (Hstacks : forall h s xs t t',
    NoDup (tree_paths t) ->
    attach_stacks is_ubox is_cxl is_pcie is_ioat has_cxl have_ioat create_ioat
      h s xs t = Some t' ->
    NoDup (tree_paths t') /\ incl (tree_paths t) (tree_paths t')).
  { intros h s xs. induction xs as [| x xs IH]; intros t t' Hn H; simpl in H.
    - injection H as <-. split; [exact Hn | apply incl_refl].
    - destruct (attach_stack is_ubox is_cxl is_pcie is_ioat has_cxl have_ioat
                  create_ioat h s x t) as [t1 |] eqn:E; simpl in H; [| discriminate].
      destruct (Hstep h s x t t1 Hn E) as [Hn1 Hi1].
      destruct (IH t1 t' Hn1 H) as [Hn2 Hi2].
      split; [exact Hn2 | exact (incl_tran Hi1 Hi2)]. }
  destruct hob as [h |]; simpl in Hrun.
  - revert root_bus Hnd Hrun. generalize (zrange (numofIIO h)) as ss.
    induction ss as [| s ss IH]; intros t Hn H; simpl in H.
    + injection H as <-. split; [exact Hn | apply incl_refl].
    + destruct (attach_stacks is_ubox is_cxl is_pcie is_ioat has_cxl have_ioat
                  create_ioat h s (zrange MAX_LOGIC_IIO_STACK) t) as [t1 |] eqn:E;
        simpl in H; [| discriminate].
      destruct (Hstacks h s _ t t1 Hn E) as [Hn1 Hi1].
      destruct (IH t1 Hn1 H) as [Hn2 Hi2].
      split; [exact Hn2 | exact (incl_tran Hi1 Hi2)].
  - injection Hrun as <-. split; [exact Hnd | apply incl_refl].
Qed.

Lemma attach_iio_stacks_paths_witness :
  ((forall dp t sr t', no_ioat dp t sr = Some t' -> NoDup (tree_paths t) ->
      NoDup (tree_paths t') /\ incl (tree_paths t) (tree_paths t')) /\
   NoDup (tree_paths []) /\
   attach_iio_stacks 3 (fun _ => false) (fun _ => false) (fun _ => true) (fun _ => false)
     false false no_ioat (Some hob_walk) [] =
   Some [dev_scenario (init_xeon_domain_path 0 0 0) iio_pcie_domain_ops DOMAIN_TYPE_PCIE 0 5;
         dev_scenario (init_xeon_domain_path 0 2 8) iio_pcie_domain_ops DOMAIN_TYPE_PCIE 8 10])
  /\
  NoDup (tree_paths
    [dev_scenario (init_xeon_domain_path 0 0 0) iio_pcie_domain_ops DOMAIN_TYPE_PCIE 0 5;
     dev_scenario (init_xeon_domain_path 0 2 8) iio_pcie_domain_ops DOMAIN_TYPE_PCIE 8 10]) /\
  incl (tree_paths [])
    (tree_paths
      [dev_scenario (init_xeon_domain_path 0 0 0) iio_pcie_domain_ops DOMAIN_TYPE_PCIE 0 5;
       dev_scenario (init_xeon_domain_path 0 2 8) iio_pcie_domain_ops DOMAIN_TYPE_PCIE 8 10]).
Proof.
  assert (Hioat : forall dp t sr t', no_ioat dp t sr = Some t' -> NoDup (tree_paths t) ->
            NoDup (tree_paths t') /\ incl (tree_paths t) (tree_paths t')).
  { intros dp t sr t' H Hn. injection H as <-. split; [exact Hn | apply incl_refl]. }
  split; [split; [exact Hioat | split; [constructor | reflexivity]] |].
  apply (attach_iio_stacks_paths 3 (fun _ => false) (fun _ => false) (fun _ => true)
           (fun _ => false) false false no_ioat (Some hob_walk) []).
  - exact Hioat.
  - constructor.
  - reflexivity.
Defined.

(** A PCIe-bridge stack appends one domain to a tree without its path:
    buses [BusBase, BusLimit], the standard read-resources role and the
    PCIe label. *)
Theorem soc_create_pcie_domains_one (dp : Z) (t : tree) (sr : STACK_RES) :
  stack_res_wf sr = true ->
  find_dev_path t (init_xeon_domain_path (dn_socket dp) (dn_stack dp) (BusBase sr)) = None ->
  soc_create_pcie_domains dp t sr =
  t ++ [domain_dev (init_xeon_domain_path (dn_socket dp) (dn_stack dp) (BusBase sr))
          iio_pcie_domain_ops DOMAIN_TYPE_PCIE
          {| secondary := BusBase sr; subordinate := BusBase sr;
             max_subordinate := BusLimit sr |}].
Proof.
  intros Hwf Hf. apply stack_res_wf_spec in Hwf.
  unfold soc_create_pcie_domains. rewrite soc_create_domains_fresh by exact Hf.
  rewrite !u16_small by (simpl in *; lia). reflexivity.
Qed.

Lemma soc_create_pcie_domains_one_witness :
  (stack_res_wf sr_scenario1 = true /\
   find_dev_path [] (init_xeon_domain_path (dn_socket (init_xeon_domain_path 0 0 0))
                       (dn_stack (init_xeon_domain_path 0 0 0)) (BusBase sr_scenario1)) = None) /\
  soc_create_pcie_domains (init_xeon_domain_path 0 0 0) [] sr_scenario1 =
  [] ++ [domain_dev (init_xeon_domain_path (dn_socket (init_xeon_domain_path 0 0 0))
                       (dn_stack (init_xeon_domain_path 0 0 0)) (BusBase sr_scenario1))
           iio_pcie_domain_ops DOMAIN_TYPE_PCIE
           {| secondary := BusBase sr_scenario1; subordinate := BusBase sr_scenario1;
              max_subordinate := BusLimit sr_scenario1 |}].
Proof.
  split; [split; reflexivity |].
  apply soc_create_pcie_domains_one; reflexivity.
Defined.


